(** * LeNet on MNIST: the network builder and its shape propagation

    A shallow embedding of [mnist_lenet/__init__.py].  The class [LeNet]
    composes a convolutional sequence, a flattener and a top MLP, exposes the
    last width of the MLP as the property [output_dim], and pushes the
    flattened size of the convolutional output into the MLP before
    allocation.

    Python lists are mutable objects: the list handed to the constructor as
    [top_mlp_dims] is kept by reference, [output_dim]'s setter writes into
    it, and [_push_allocation_config] builds a new list.  Lists of widths
    therefore live in a store and the records hold references to them. *)

From stdpp Require Import base numbers option list strings pretty gmap fin_maps.

(** ** The Python fragment the class uses *)

Module Py.

(** A dimension as the shape arithmetic computes it, before it is known to
    be a whole number: the quotient of [numerator] by [denominator]. *)
Record fraction : Set := Fraction { numerator : Z; denominator : Z }.

(** The exceptions: those of Python, and the configuration error of shape
    propagation, as the arithmetic of one axis raises it ([DimensionError],
    with the computed dimension) and as the sequence reports it
    ([ShapeError], with the index of the stage as well). *)
Inductive exn : Set :=
| IndexError
| ZeroDivisionError
| ValueError
| ReferenceError
| DimensionError (dimension : fraction)
| ShapeError (stage : nat) (dimension : fraction).

Inductive result (A : Type) : Type :=
| Ok (a : A)
| Raise (e : exn).
Arguments Ok {A} a.
Arguments Raise {A} e.

#[export] Instance result_ret : MRet result := λ A a, Ok a.
#[export] Instance result_bind : MBind result := λ A B f m,
  match m with
  | Ok a => f a
  | Raise e => Raise e
  end.

(** References to list objects, and the store holding their contents. *)
Definition loc : Set := positive.
Abbreviation heap := (gmap loc (list Z)).

(** Computations that read and write the store and may raise. *)
Definition M (A : Type) : Type := heap → result (A * heap).

#[export] Instance M_ret : MRet M := λ A a h, Ok (a, h).
#[export] Instance M_bind : MBind M := λ A B f m h,
  match m h with
  | Ok (a, h') => f a h'
  | Raise e => Raise e
  end.

Definition lift {A} (x : result A) : M A := λ h,
  match x with
  | Ok a => Ok (a, h)
  | Raise e => Raise e
  end.

(** Reading through a reference.  A reference held by a live object always
    points at a list; [ReferenceError] marks stores that are not of that
    form. *)
Definition load (r : loc) : M (list Z) := λ h,
  match h !! r with
  | Some l => Ok (l, h)
  | None => Raise ReferenceError
  end.

Definition store (r : loc) (l : list Z) : M unit := λ h,
  Ok ((), <[r := l]> h).

(** A list display or [+] on lists makes a new object. *)
Definition alloc (l : list Z) : M loc := λ h,
  let r := fresh (dom h) in Ok (r, <[r := l]> h).

(** Subscripts: a negative index counts from the end, and an index outside
    the list raises [IndexError]. *)
Definition index (len : nat) (i : Z) : result nat :=
  let j := if bool_decide (i < 0)%Z then (i + Z.of_nat len)%Z else i in
  if bool_decide (0 ≤ j < Z.of_nat len)%Z then Ok (Z.to_nat j)
  else Raise IndexError.

Definition getitem (l : list Z) (i : Z) : result Z :=
  j ← index (length l) i;
  match l !! j with
  | Some x => Ok x
  | None => Raise IndexError
  end.

Definition setitem (l : list Z) (i : Z) (v : Z) : result (list Z) :=
  j ← index (length l) i;
  Ok (<[j := v]> l).

(** [a // b] on integers: floor division, an error on a zero divisor. *)
Definition floordiv (a b : Z) : result Z :=
  if bool_decide (b = 0)%Z then Raise ZeroDivisionError else Ok (a `div` b)%Z.

(** [zip] of four lists stops at the shortest. *)
Fixpoint zip4 {A B C D} (a : list A) (b : list B) (c : list C) (d : list D)
  : list (A * B * C * D) :=
  match a, b, c, d with
  | x :: a', y :: b', z :: c', w :: d' => (x, y, z, w) :: zip4 a' b' c' d'
  | _, _, _, _ => []
  end.

(** [enumerate] pairs every element with its position. *)
Definition enumerate {A} (l : list A) : list (nat * A) :=
  imap (λ i x, (i, x)) l.

(** The signed 64-bit integers, and the reduction of an integer to them
    that arithmetic on them performs silently (two's complement). *)
Definition int64 (z : Z) : Prop := (- 2 ^ 63 ≤ z < 2 ^ 63)%Z.

Definition wrap64 (z : Z) : Z := ((z + 2 ^ 63) `mod` 2 ^ 64 - 2 ^ 63)%Z.

(** [numpy.prod] of a tuple of integers that fit in 64 bits: numpy holds
    them as [int64] and multiplies in [int64], so that the product wraps
    around instead of growing.  (The product of no factor is 1, which numpy
    returns as the float 1.0.) *)
Definition prod (l : list Z) : Z := wrap64 (foldr Z.mul 1%Z l).

End Py.
Import Py.


(** ** The bricks the class is built from

    [ConvolutionalLayer], [ConvolutionalSequence], [Flattener], [MLP] and
    [FeedforwardSequence] come from the Blocks framework; the class only
    constructs them, reads the output shape of the convolutional sequence and
    writes two attributes of the MLP.  The activations are bricks whose
    nature plays no part here: they are an arbitrary type [Act]. *)

Section Model.
Context {Act : Type}.

(** A convolution-activation-pooling stage: the keyword arguments the
    constructor receives, and the input shape its sequence pushes into it
    ([None] until then). *)
Record ConvolutionalLayer : Type := {
  cl_filter_size : Z * Z;
  cl_num_filters : Z;
  cl_pooling_size : Z * Z;
  cl_activation : Act;
  cl_conv_step : Z * Z;
  cl_border_mode : string;
  cl_name : string;
  cl_image_size : option (Z * Z);
  cl_num_channels : option Z
}.

Record ConvolutionalSequence : Type := {
  cs_layers : list ConvolutionalLayer;
  cs_num_channels : Z;
  cs_image_size : Z * Z
}.

Record MLP : Type := {
  mlp_activations : list Act;
  mlp_dims : loc
}.

(** The bound methods [self.conv_sequence.apply], [self.flattener.apply]
    and [self.top_mlp.apply]. *)
Inductive ApplicationMethod : Set :=
| conv_sequence_apply
| flattener_apply
| top_mlp_apply.

(** The shape protocol of the convolutional sequence, as the class uses it:
    [_push_allocation_config] resolves the shapes of the stages, and
    [get_dim('output')] reports the final output shape. *)
Class ShapeProtocol : Type := {
  cs_push_allocation_config : ConvolutionalSequence → result ConvolutionalSequence;
  cs_get_dim_output : ConvolutionalSequence → result (list Z)
}.

(** Modelled from the spec: the verdict on a computed dimension.  A
    dimension that is a positive whole number is accepted; one that is
    fractional or not positive is a configuration error, raised with the
    computed dimension. *)
Definition check_dimension (f : fraction) : result Z :=
  q ← floordiv (numerator f) (denominator f);
  if bool_decide (numerator f `mod` denominator f = 0 ∧ 0 < q)%Z
  then Ok q
  else Raise (DimensionError f).

(** Modelled from the spec: the output size of a convolution along one
    axis, which Blocks takes from the numerical library: the number of
    positions of the window, [(i - k) / d + 1].  Without padding ('valid')
    the window stays inside the input; with 'full' padding it may extend
    beyond both edges, the input then counting [k - 1] more on each side,
    so at stride 1 an input of [i] and a filter of [k] give [i + k - 1]. *)
Definition conv_dimension (border_mode : string) (i k d : Z) : fraction :=
  if bool_decide (border_mode = "valid")
  then Fraction (i - k + d) d
  else Fraction (i + k - 2 + d) d.

Definition conv_output_dim (border_mode : string) (i k d : Z) : result Z :=
  check_dimension (conv_dimension border_mode i k d).

(** Modelled from the spec: the output size of the pooling reduction along
    one axis, for windows of size [p] that do not overlap: [r / p]. *)
Definition pool_dimension (r p : Z) : fraction := Fraction r p.

Definition pool_output_dim (r p : Z) : result Z :=
  check_dimension (pool_dimension r p).

(** Modelled from the spec: the spatial output shape of one stage from its
    input shape and its filter, stride, border and pooling parameters
    (convolution, then pooling).  The four dimensions are checked in turn,
    and the first that is fractional or not positive is the configuration
    error of the stage. *)
Definition cl_output_size (layer : ConvolutionalLayer) (image_size : Z * Z)
  : result (Z * Z) :=
  ch ← conv_output_dim (cl_border_mode layer) image_size.1
         (cl_filter_size layer).1 (cl_conv_step layer).1;
  cw ← conv_output_dim (cl_border_mode layer) image_size.2
         (cl_filter_size layer).2 (cl_conv_step layer).2;
  ph ← pool_output_dim ch (cl_pooling_size layer).1;
  pw ← pool_output_dim cw (cl_pooling_size layer).2;
  Ok (ph, pw).

Definition cl_with_input (layer : ConvolutionalLayer) (num_channels : Z)
    (image_size : Z * Z) : ConvolutionalLayer :=
  {| cl_filter_size := cl_filter_size layer;
     cl_num_filters := cl_num_filters layer;
     cl_pooling_size := cl_pooling_size layer;
     cl_activation := cl_activation layer;
     cl_conv_step := cl_conv_step layer;
     cl_border_mode := cl_border_mode layer;
     cl_name := cl_name layer;
     cl_image_size := Some image_size;
     cl_num_channels := Some num_channels |}.

(** Modelled from the spec: the report of a configuration error, which
    names the stage it arose in. *)
Definition at_stage {A : Type} (stage : nat) (x : result A) : result A :=
  match x with
  | Raise (DimensionError f) => Raise (ShapeError stage f)
  | _ => x
  end.

(** Modelled from the spec: shape propagation inside the convolutional
    sequence, which is part of Blocks.  Every stage receives the channel
    count and spatial shape the previous one produces, the first one those
    of the input image; a stage whose output shape is in error stops the
    propagation.  [stage] is the index of the first stage of [layers]. *)
Fixpoint push_layers (stage : nat) (layers : list ConvolutionalLayer)
    (num_channels : Z) (image_size : Z * Z)
  : result (list ConvolutionalLayer) :=
  match layers with
  | [] => Ok []
  | layer :: rest =>
      out ← at_stage stage (cl_output_size layer image_size);
      rest' ← push_layers (S stage) rest (cl_num_filters layer) out;
      Ok (cl_with_input layer num_channels image_size :: rest')
  end.

Definition blocks_push_allocation_config (cs : ConvolutionalSequence)
  : result ConvolutionalSequence :=
  layers ← push_layers 0 (cs_layers cs) (cs_num_channels cs) (cs_image_size cs);
  Ok {| cs_layers := layers;
        cs_num_channels := cs_num_channels cs;
        cs_image_size := cs_image_size cs |}.

(** Modelled from the spec: the spatial output shape a stage reports, from
    the input shape pushed into it.  A stage whose input shape was never
    pushed has no shape to report. *)
Definition cl_get_output_size (layer : ConvolutionalLayer) : result (Z * Z) :=
  match cl_image_size layer with
  | None => Raise ValueError
  | Some image_size => cl_output_size layer image_size
  end.

(** Modelled from the spec: the output shape of the convolutional
    sequence, which is part of Blocks: (feature maps, height, width) of the
    last stage, and the input shape itself when there is no stage. *)
Definition blocks_get_dim_output (cs : ConvolutionalSequence)
  : result (list Z) :=
  match last (cs_layers cs) with
  | None => Ok [cs_num_channels cs; (cs_image_size cs).1; (cs_image_size cs).2]
  | Some layer =>
      out ← cl_get_output_size layer;
      Ok [cl_num_filters layer; out.1; out.2]
  end.

Definition blocks_protocol : ShapeProtocol :=
  {| cs_push_allocation_config := blocks_push_allocation_config;
     cs_get_dim_output := blocks_get_dim_output |}.

(** Modelled from the spec: applying a [FeedforwardSequence], which is part
    of Blocks, is the ordered composition of its application methods. *)
Definition Sequence_apply {T : Type} (run : ApplicationMethod → T → T)
    (application_methods : list ApplicationMethod) (x : T) : T :=
  foldl (λ acc m, run m acc) x application_methods.

(** ** The class [LeNet] *)

Record LeNet : Type := {
  conv_step : Z * Z;
  num_channels : Z;
  image_shape : Z * Z;
  top_mlp_activations : list Act;
  top_mlp_dims : loc;
  border_mode : string;
  conv_sequence : ConvolutionalSequence;
  top_mlp : MLP;
  application_methods : list ApplicationMethod
}.

(** [self.layers] is the very list handed to the convolutional sequence. *)
Definition layers (self : LeNet) : list ConvolutionalLayer :=
  cs_layers (conv_sequence self).

(** One stage of the comprehension in [__init__]. *)
Definition make_layer (conv_step : Z * Z) (border_mode : string)
    (item : nat * (Act * (Z * Z) * Z * (Z * Z))) : ConvolutionalLayer :=
  let '(i, (activation, filter_size, num_filter, pooling_size)) := item in
  {| cl_filter_size := filter_size;
     cl_num_filters := num_filter;
     cl_pooling_size := pooling_size;
     cl_activation := activation;
     cl_conv_step := conv_step;
     cl_border_mode := border_mode;
     cl_name := "conv_pool_" +:+ pretty i;
     cl_image_size := None;
     cl_num_channels := None |}.

(** [LeNet.__init__].  [conv_step] is [None] when the argument is omitted
    or passed as [None]; [border_mode] is [None] when it is omitted, and
    then takes the default of the signature, ['valid'].  [top_mlp_dims] is
    the reference to the caller's list. *)
Definition LeNet_init (conv_activations : list Act) (num_channels : Z)
    (image_shape : Z * Z) (filter_sizes : list (Z * Z))
    (feature_maps : list Z) (pooling_sizes : list (Z * Z))
    (top_mlp_activations : list Act) (top_mlp_dims : loc)
    (conv_step : option (Z * Z)) (border_mode : option string) : LeNet :=
  let self_conv_step :=
    match conv_step with
    | None => (1, 1)%Z
    | Some step => step
    end in
  let self_border_mode := default "valid" border_mode in
  let params := zip4 conv_activations filter_sizes feature_maps pooling_sizes in
  let self_layers :=
    make_layer self_conv_step self_border_mode <$> enumerate params in
  let self_conv_sequence :=
    {| cs_layers := self_layers;
       cs_num_channels := num_channels;
       cs_image_size := image_shape |} in
  let application_methods := [conv_sequence_apply] in
  let self_top_mlp :=
    {| mlp_activations := top_mlp_activations; mlp_dims := top_mlp_dims |} in
  let application_methods :=
    application_methods ++ [flattener_apply; top_mlp_apply] in
  {| conv_step := self_conv_step;
     num_channels := num_channels;
     image_shape := image_shape;
     top_mlp_activations := top_mlp_activations;
     top_mlp_dims := top_mlp_dims;
     border_mode := self_border_mode;
     conv_sequence := self_conv_sequence;
     top_mlp := self_top_mlp;
     application_methods := application_methods |}.

(** The property [output_dim]: the getter and the setter. *)
Definition output_dim (self : LeNet) : M Z :=
  dims ← load (top_mlp_dims self);
  lift (getitem dims (-1)).

Definition set_output_dim (self : LeNet) (value : Z) : M () :=
  dims ← load (top_mlp_dims self);
  dims' ← lift (setitem dims (-1) value);
  store (top_mlp_dims self) dims'.

(** The instance once [_push_allocation_config] has run: the
    convolutional sequence has resolved its shapes, and the two attributes
    [top_mlp.activations] and [top_mlp.dims] have been assigned. *)
Definition with_allocation_config (self : LeNet) (cs : ConvolutionalSequence)
    (activations : list Act) (dims : loc) : LeNet :=
  {| conv_step := conv_step self;
     num_channels := num_channels self;
     image_shape := image_shape self;
     top_mlp_activations := top_mlp_activations self;
     top_mlp_dims := top_mlp_dims self;
     border_mode := border_mode self;
     conv_sequence := cs;
     top_mlp := {| mlp_activations := activations; mlp_dims := dims |};
     application_methods := application_methods self |}.

(** [LeNet._push_allocation_config]. *)
Definition _push_allocation_config {protocol : ShapeProtocol} (self : LeNet)
  : M LeNet :=
  cs ← lift (cs_push_allocation_config (conv_sequence self));
  conv_out_dim ← lift (cs_get_dim_output cs);
  dims ← load (top_mlp_dims self);
  new_dims ← alloc ([prod conv_out_dim] ++ dims);
  mret (with_allocation_config self cs (top_mlp_activations self) new_dims).

(** *** Misconfigured stages

    What it is for a configuration to produce, at some stage, a dimension
    that is fractional or not positive. *)

(** The computed dimension [f] is the whole number [n], and positive. *)
Definition whole (f : fraction) (n : Z) : Prop :=
  denominator f ≠ 0%Z ∧ numerator f = (n * denominator f)%Z ∧ (0 < n)%Z.

Definition fractional (f : fraction) : Prop :=
  denominator f ≠ 0%Z ∧ ¬ (denominator f | numerator f)%Z.



(** The four dimensions of a stage on an input shape: the convolution along
    the height and the width, then the pooling of each. *)
Definition conv_height (layer : ConvolutionalLayer) (image_size : Z * Z)
  : fraction :=
  conv_dimension (cl_border_mode layer) image_size.1 (cl_filter_size layer).1
    (cl_conv_step layer).1.

Definition conv_width (layer : ConvolutionalLayer) (image_size : Z * Z)
  : fraction :=
  conv_dimension (cl_border_mode layer) image_size.2 (cl_filter_size layer).2
    (cl_conv_step layer).2.

Definition pool_height (layer : ConvolutionalLayer) (ch : Z) : fraction :=
  pool_dimension ch (cl_pooling_size layer).1.

Definition pool_width (layer : ConvolutionalLayer) (cw : Z) : fraction :=
  pool_dimension cw (cl_pooling_size layer).2.

(** All four dimensions of the stage are positive whole numbers, and [out]
    is the output shape. *)
Definition stage_resolves (layer : ConvolutionalLayer) (image_size out : Z * Z)
  : Prop :=
  ∃ ch cw,
    whole (conv_height layer image_size) ch ∧
    whole (conv_width layer image_size) cw ∧
    whole (pool_height layer ch) out.1 ∧
    whole (pool_width layer cw) out.2.



(** Every stage of the sequence resolves, the last one to [out]. *)
Inductive all_resolve : list ConvolutionalLayer → Z * Z → Z * Z → Prop :=
| resolve_nil image_size : all_resolve [] image_size image_size
| resolve_cons layer rest image_size mid out :
    stage_resolves layer image_size mid →
    all_resolve rest mid out →
    all_resolve (layer :: rest) image_size out.

(** Applying the network: [LeNet] inherits [apply] from
    [FeedforwardSequence]. *)
Definition apply {T : Type} (run : ApplicationMethod → T → T) (self : LeNet)
    (x : T) : T :=
  Sequence_apply run (application_methods self) x.

End Model.

Arguments ConvolutionalLayer : clear implicits.
Arguments ConvolutionalSequence : clear implicits.
Arguments MLP : clear implicits.
Arguments LeNet : clear implicits.
Arguments ShapeProtocol : clear implicits.

(** ** The configuration of [main] *)

Inductive Brick : Set := Rectifier | Softmax.


(** The network [main] builds, from its optional arguments (lines 126-148):
    the list [mlp_hiddens + [output_size]] is a new object, whose reference
    the instance keeps. *)
Definition main_convnet (feature_maps mlp_hiddens conv_sizes pool_sizes
    : option (list Z)) : M (LeNet Brick) :=
  let feature_maps := default [6; 16]%Z feature_maps in
  let mlp_hiddens := default [120; 84]%Z mlp_hiddens in
  let conv_sizes := default [5; 5]%Z conv_sizes in
  let pool_sizes := default [2; 2]%Z pool_sizes in
  let image_size := (28, 28)%Z in
  let output_size := 10%Z in
  let conv_activations := (λ _, Rectifier) <$> feature_maps in
  let mlp_activations := ((λ _, Rectifier) <$> mlp_hiddens) ++ [Softmax] in
  top_mlp_dims ← alloc (mlp_hiddens ++ [output_size]);
  mret (LeNet_init conv_activations 1 image_size (zip conv_sizes conv_sizes)
          feature_maps (zip pool_sizes pool_sizes) mlp_activations
          top_mlp_dims None (Some "full")).

(** The default network of [main] and the store it lives in. *)
Definition lenet5 : LeNet Brick :=
  LeNet_init [Rectifier; Rectifier] 1 (28, 28)%Z [(5, 5); (5, 5)]%Z [6; 16]%Z
    [(2, 2); (2, 2)]%Z [Rectifier; Rectifier; Softmax] 1%positive None
    (Some "full").

Definition lenet5_heap : heap := {[1%positive := [120; 84; 10]%Z]}.

(** The convolutional sequence of that network once its shapes are
    resolved. *)
Definition lenet5_resolved : ConvolutionalSequence Brick :=
  Eval vm_compute in
    match blocks_push_allocation_config (conv_sequence lenet5) with
    | Ok cs => cs
    | Raise _ => conv_sequence lenet5
    end.

(** A network whose only stage has a 5x5 filter on a 3x3 image, without
    padding. *)
Definition narrow_convnet : LeNet Brick :=
  LeNet_init [Rectifier] 1 (3, 3)%Z [(5, 5)]%Z [6]%Z [(2, 2)]%Z [Softmax]
    1%positive None None.

Definition narrow_heap : heap := {[1%positive := [10]%Z]}.

(** A network whose only stage has a vertical stride of 0, and a store in
    which the list of widths is empty. *)
Definition still_convnet : LeNet Brick :=
  LeNet_init [Rectifier] 1 (28, 28)%Z [(5, 5)]%Z [6]%Z [(2, 2)]%Z [Softmax]
    1%positive (Some (0, 1)%Z) None.

Definition no_widths_heap : heap := {[1%positive := []]}.

(** Two networks on a 4294967296 x 1 image that resolve to the shape
    (4294967296, 4294967296, 1), whose product is 2^64: one with a single
    stage of that many 1x1 filters and 1x1 pooling, and one without any
    stage but with that many input channels. *)
Definition wide_convnet : LeNet Brick :=
  LeNet_init [Rectifier] 1 (4294967296, 1)%Z [(1, 1)]%Z [4294967296]%Z
    [(1, 1)]%Z [Softmax] 1%positive None None.

Definition wide_flat_convnet : LeNet Brick :=
  LeNet_init [] 4294967296 (4294967296, 1)%Z [] [] [] [Softmax] 1%positive
    None None.


(** A network without any stage, on the same image. *)
Definition flat_convnet : LeNet Brick :=
  LeNet_init [] 1 (28, 28)%Z [] [] [] [Softmax] 1%positive None None.

(** The value a computation returns, without the store. *)
Definition value {A : Type} (x : result (A * heap)) : result A :=
  match x with
  | Ok (a, _) => Ok a
  | Raise e => Raise e
  end.

(** ** The arguments of [main]

    [main] takes its four layer descriptions as keyword arguments with
    default [None].  A caller passes lists; the command line declares the
    four options with [type=int], so that an option that is given arrives
    as a single integer. *)

Inductive argument : Set :=
| ArgNone
| ArgInt (n : Z)
| ArgList (l : list Z).

(** [if x is None: x = default]: only [None] is replaced. *)
Definition or_default (x : argument) (default : list Z) : argument :=
  match x with
  | ArgNone => ArgList default
  | _ => x
  end.

(** Iterating over a value, in a comprehension or in [zip]: an integer is
    not iterable. *)
Definition iter (x : argument) : option (list Z) :=
  match x with
  | ArgList l => Some l
  | _ => None
  end.

Inductive outcome (A : Type) : Type :=
| Returned (a : A)
| TypeError
| Raised (e : exn).
Arguments Returned {A} a.
Arguments TypeError {A}.
Arguments Raised {A} e.

(** Lines 126-148 of [main] on arbitrary arguments: the defaults, the two
    comprehensions over [feature_maps] and [mlp_hiddens], the two [zip]s
    over [conv_sizes] and [pool_sizes], and the construction. *)
Definition main_network (feature_maps mlp_hiddens conv_sizes pool_sizes
    : argument) (h : heap) : outcome (LeNet Brick * heap) :=
  let feature_maps := or_default feature_maps [6; 16]%Z in
  let mlp_hiddens := or_default mlp_hiddens [120; 84]%Z in
  let conv_sizes := or_default conv_sizes [5; 5]%Z in
  let pool_sizes := or_default pool_sizes [2; 2]%Z in
  match iter feature_maps, iter mlp_hiddens, iter conv_sizes, iter pool_sizes with
  | Some fm, Some mh, Some cs, Some ps =>
      match main_convnet (Some fm) (Some mh) (Some cs) (Some ps) h with
      | Ok built => Returned built
      | Raise e => Raised e
      end
  | _, _, _, _ => TypeError
  end.

(** ** Properties *)

Section Properties.
Context {Act : Type}.
Implicit Types (self : LeNet Act) (h : heap) (dims : list Z) (r : loc).

(** *** Subscripts with [-1] *)

Lemma index_last (len : nat) : index (S len) (-1) = Ok len.
Proof.
  unfold index. cbv zeta.
  rewrite (bool_decide_eq_true_2 (-1 < 0)%Z) by lia.
  rewrite bool_decide_eq_true_2 by lia.
  f_equal. lia.
Qed.

Lemma getitem_last (init : list Z) (x : Z) : getitem (init ++ [x]) (-1) = Ok x.
Proof.
  unfold getitem. rewrite length_app, Nat.add_comm. simpl length.
  rewrite index_last. simpl.
  by rewrite lookup_app_r, Nat.sub_diag.
Qed.

Lemma setitem_last (init : list Z) (x v : Z) :
  setitem (init ++ [x]) (-1) v = Ok (init ++ [v]).
Proof.
  unfold setitem. rewrite length_app, Nat.add_comm. simpl length.
  rewrite index_last. simpl. f_equal.
  rewrite insert_app_r_alt by lia. by rewrite Nat.sub_diag.
Qed.

Lemma getitem_nil (i : Z) : getitem [] i = Raise IndexError.
Proof.
  unfold getitem, index. simpl.
  rewrite (bool_decide_eq_false_2 (0 ≤ _ < 0)%Z); [done|].
  case_bool_decide; lia.
Qed.

Lemma setitem_nil (i v : Z) : setitem [] i v = Raise IndexError.
Proof.
  unfold setitem, index. simpl.
  rewrite (bool_decide_eq_false_2 (0 ≤ _ < 0)%Z); [done|].
  case_bool_decide; lia.
Qed.

Lemma last_snoc_inv (dims : list Z) (n : Z) :
  last dims = Some n → ∃ init, dims = init ++ [n].
Proof.
  intros Hlast. destruct (decide (dims = [])) as [->|Hne]; [done|].
  destruct (exists_last Hne) as (init & x & ->).
  rewrite last_snoc in Hlast. exists init. congruence.
Qed.

(** *** The store across an allocation *)

Lemma fresh_not_allocated h : h !! fresh (dom h) = None.
Proof. apply not_elem_of_dom, is_fresh. Qed.

Lemma lookup_alloc_old h r (new : list Z) :
  is_Some (h !! r) → <[fresh (dom h) := new]> h !! r = h !! r.
Proof.
  intros Hr. apply lookup_insert_ne. intros <-.
  rewrite fresh_not_allocated in Hr. by destruct Hr.
Qed.

(** *** What [_push_allocation_config] computes *)

Lemma push_allocation_config_run {protocol : ShapeProtocol Act} self h cs conv_out_dim dims :
  cs_push_allocation_config (conv_sequence self) = Ok cs →
  cs_get_dim_output cs = Ok conv_out_dim →
  h !! top_mlp_dims self = Some dims →
  _push_allocation_config self h =
    Ok (with_allocation_config self cs (top_mlp_activations self) (fresh (dom h)),
        <[fresh (dom h) := prod conv_out_dim :: dims]> h).
Proof.
  intros Hpush Hdim Hdims.
  unfold _push_allocation_config, mbind, M_bind, lift, load, alloc, mret, M_ret.
  by rewrite Hpush, Hdim, Hdims.
Qed.

Lemma output_dim_run self h (init : list Z) (n : Z) :
  h !! top_mlp_dims self = Some (init ++ [n]) → output_dim self h = Ok (n, h).
Proof.
  intros Hdims. unfold output_dim, mbind, M_bind, load, lift.
  by rewrite Hdims, getitem_last.
Qed.

Lemma output_dim_value self h dims :
  h !! top_mlp_dims self = Some dims →
  value (output_dim self h) = getitem dims (-1).
Proof.
  intros Hdims. unfold output_dim, mbind, M_bind, load, lift.
  rewrite Hdims. by destruct (getitem dims (-1)).
Qed.

Lemma set_output_dim_run self h (init : list Z) (old N : Z) :
  h !! top_mlp_dims self = Some (init ++ [old]) →
  set_output_dim self N h = Ok ((), <[top_mlp_dims self := init ++ [N]]> h).
Proof.
  intros Hdims. unfold set_output_dim, mbind, M_bind, load, lift, store.
  by rewrite Hdims, setitem_last.
Qed.

(** With an empty list of widths there is no last entry: both accessors
    raise [IndexError]. *)
Lemma output_dim_empty self h (N : Z) :
  h !! top_mlp_dims self = Some [] →
  output_dim self h = Raise IndexError ∧ set_output_dim self N h = Raise IndexError.
Proof.
  intros Hdims.
  unfold output_dim, set_output_dim, mbind, M_bind, load, lift.
  by rewrite Hdims, getitem_nil, setitem_nil.
Qed.

(** The references and attributes of the instance that propagation leaves
    alone. *)
Lemma push_allocation_config_frame {protocol : ShapeProtocol Act} self h self' h' :
  _push_allocation_config self h = Ok (self', h') →
  top_mlp_dims self' = top_mlp_dims self ∧
  top_mlp_activations self' = top_mlp_activations self ∧
  conv_step self' = conv_step self ∧
  num_channels self' = num_channels self ∧
  image_shape self' = image_shape self ∧
  border_mode self' = border_mode self ∧
  application_methods self' = application_methods self ∧
  mlp_activations (top_mlp self') = top_mlp_activations self ∧
  ∀ r, is_Some (h !! r) → h' !! r = h !! r.
Proof.
  unfold _push_allocation_config, mbind, M_bind, lift, load, alloc, mret, M_ret.
  destruct (cs_push_allocation_config (conv_sequence self)) as [cs|]; [|done].
  destruct (cs_get_dim_output cs) as [d|]; [|done].
  destruct (h !! top_mlp_dims self) as [dims|] eqn:Hdims; [|done].
  intros [= <- <-]. repeat split; try done.
  intros r Hr. by apply lookup_alloc_old.
Qed.

(** *** Products in 64 bits *)

Lemma wrap64_int64 (z : Z) : int64 (wrap64 z).
Proof.
  unfold int64, wrap64.
  pose proof (Z.mod_pos_bound (z + 2 ^ 63) (2 ^ 64)) as Hbound. lia.
Qed.

Lemma wrap64_id (z : Z) : int64 z → wrap64 z = z.
Proof.
  unfold int64, wrap64. intros Hz.
  rewrite Z.mod_small by lia. lia.
Qed.

Lemma wrap64_congruent (z : Z) : ∃ k, wrap64 z = (z + k * 2 ^ 64)%Z.
Proof.
  unfold wrap64. exists (- ((z + 2 ^ 63) `div` 2 ^ 64))%Z.
  pose proof (Z.div_mod (z + 2 ^ 63) (2 ^ 64)) as Hdm. lia.
Qed.

(** *** The claims about propagation and the output width *)

(** C1, as the code has it: for every instance, shape propagation sets the
    width list of the classifier head, [top_mlp.dims], to [numpy.prod] of
    the final output dimensions of the convolutional sequence followed by
    the configured widths [top_mlp_dims], in that order.  For a shape of
    64-bit integers [numpy.prod] is the product reduced to 64 bits; it is
    the product itself whenever that fits in 64 bits. *)
Theorem push_sets_top_mlp_dims {protocol : ShapeProtocol Act} self h cs conv_out_dim dims :
  cs_push_allocation_config (conv_sequence self) = Ok cs →
  cs_get_dim_output cs = Ok conv_out_dim →
  Forall int64 conv_out_dim →
  h !! top_mlp_dims self = Some dims →
  ∃ self' h',
    _push_allocation_config self h = Ok (self', h') ∧
    conv_sequence self' = cs ∧
    h' !! mlp_dims (top_mlp self') =
      Some ([wrap64 (foldr Z.mul 1%Z conv_out_dim)] ++ dims) ∧
    (int64 (foldr Z.mul 1%Z conv_out_dim) →
     h' !! mlp_dims (top_mlp self') =
       Some ([foldr Z.mul 1%Z conv_out_dim] ++ dims)).
Proof.
  intros Hpush Hdim _ Hdims.
  eexists _, _. split; [by eapply push_allocation_config_run|].
  split; [done|]. simpl. rewrite lookup_insert_eq. split; [done|].
  intros Hfits. unfold prod. by rewrite wrap64_id.
Qed.

Lemma last_width_after_push {protocol : ShapeProtocol Act} self h cs conv_out_dim dims n :
  cs_push_allocation_config (conv_sequence self) = Ok cs →
  cs_get_dim_output cs = Ok conv_out_dim →
  h !! top_mlp_dims self = Some dims →
  last dims = Some n →
  ∃ self' h',
    _push_allocation_config self h = Ok (self', h') ∧
    output_dim self' h' = Ok (n, h') ∧
    ∃ pushed, h' !! mlp_dims (top_mlp self') = Some pushed ∧ last pushed = Some n.
Proof.
  intros Hpush Hdim Hdims [init ->]%last_snoc_inv.
  eexists _, _. split; [by eapply push_allocation_config_run|].
  split.
  - apply output_dim_run with init. simpl.
    rewrite lookup_alloc_old; [done|by rewrite Hdims].
  - exists (prod conv_out_dim :: init ++ [n]). split.
    + simpl. apply lookup_insert_eq.
    + change (last ((prod conv_out_dim :: init) ++ [n]) = Some n).
      apply last_snoc.
Qed.

(** C2: for every construction with parameter lists of equal length, after
    shape propagation the output width of the network, read through
    [output_dim] and as the last entry of the propagated list
    [top_mlp.dims], is the last entry of the configured list of widths. *)
Theorem output_width_after_push {protocol : ShapeProtocol Act}
    (conv_activations : list Act) (num_channels : Z) (image_shape : Z * Z)
    (filter_sizes : list (Z * Z)) (feature_maps : list Z)
    (pooling_sizes : list (Z * Z)) (top_mlp_activations : list Act) r
    (conv_step : option (Z * Z)) (border_mode : option string)
    h cs conv_out_dim dims (n : Z) :
  let self := LeNet_init conv_activations num_channels image_shape
                filter_sizes feature_maps pooling_sizes top_mlp_activations
                r conv_step border_mode in
  length conv_activations = length filter_sizes →
  length filter_sizes = length feature_maps →
  length feature_maps = length pooling_sizes →
  cs_push_allocation_config (conv_sequence self) = Ok cs →
  cs_get_dim_output cs = Ok conv_out_dim →
  h !! r = Some dims →
  last dims = Some n →
  ∃ self' h',
    _push_allocation_config self h = Ok (self', h') ∧
    output_dim self' h' = Ok (n, h') ∧
    ∃ pushed, h' !! mlp_dims (top_mlp self') = Some pushed ∧ last pushed = Some n.
Proof.
  intros self _ _ _ Hpush Hdim Hdims Hlast.
  by eapply last_width_after_push.
Qed.

(** C4: for every instance whose list of widths ends in an entry, and
    every value [N]: the getter returns the last entry of the list; the
    setter writes [N] over that entry of the same list object and leaves
    the other entries and every other list alone; reading after the set
    returns [N]. *)
Theorem output_dim_set_then_get self h (init : list Z) (old N : Z) :
  h !! top_mlp_dims self = Some (init ++ [old]) →
  output_dim self h = Ok (old, h) ∧
  ∃ h',
    set_output_dim self N h = Ok ((), h') ∧
    output_dim self h' = Ok (N, h') ∧
    h' !! top_mlp_dims self = Some (init ++ [N]) ∧
    last (init ++ [N]) = Some N ∧
    (∀ i, i ≠ length init → (init ++ [N]) !! i = (init ++ [old]) !! i) ∧
    (∀ r, r ≠ top_mlp_dims self → h' !! r = h !! r).
Proof.
  intros Hdims. split; [by eapply output_dim_run|].
  exists (<[top_mlp_dims self := init ++ [N]]> h).
  split; [by eapply set_output_dim_run|].
  split; [eapply output_dim_run; apply lookup_insert_eq|].
  split; [apply lookup_insert_eq|].
  split; [apply last_snoc|].
  split.
  - intros i Hi. destruct (decide (i < length init)) as [Hlt|Hge].
    + by rewrite !lookup_app_l.
    + rewrite !lookup_ge_None_2; [done| |]; rewrite length_app; simpl; lia.
  - intros r' Hr'. by apply lookup_insert_ne.
Qed.

(** C10: shape propagation does not modify the configured list
    [top_mlp_dims]: the instance keeps the same reference, the list and
    every other existing list keep their contents, and only
    [top_mlp.activations] and [top_mlp.dims] are assigned; so [output_dim]
    returns the same before and after.  Run a second time, with the
    convolutional sequence reporting the same output shape, propagation
    gives [top_mlp.dims] the same contents again: a first width followed by
    the configured widths. *)
Theorem push_leaves_top_mlp_dims {protocol : ShapeProtocol Act} self h cs cs' conv_out_dim dims :
  cs_push_allocation_config (conv_sequence self) = Ok cs →
  cs_get_dim_output cs = Ok conv_out_dim →
  cs_push_allocation_config cs = Ok cs' →
  cs_get_dim_output cs' = Ok conv_out_dim →
  h !! top_mlp_dims self = Some dims →
  ∃ self1 h1 self2 h2,
    _push_allocation_config self h = Ok (self1, h1) ∧
    _push_allocation_config self1 h1 = Ok (self2, h2) ∧
    self1 = with_allocation_config self cs (top_mlp_activations self)
              (mlp_dims (top_mlp self1)) ∧
    h1 !! top_mlp_dims self1 = Some dims ∧
    h2 !! top_mlp_dims self2 = Some dims ∧
    (∀ r, is_Some (h !! r) → h1 !! r = h !! r ∧ h2 !! r = h !! r) ∧
    value (output_dim self1 h1) = value (output_dim self h) ∧
    value (output_dim self2 h2) = value (output_dim self h) ∧
    (∃ width, h1 !! mlp_dims (top_mlp self1) = Some ([width] ++ dims)) ∧
    h2 !! mlp_dims (top_mlp self2) = h1 !! mlp_dims (top_mlp self1).
Proof.
  intros Hpush Hdim Hpush' Hdim' Hdims.
  pose proof (push_allocation_config_run self h cs conv_out_dim dims
                Hpush Hdim Hdims) as Hrun1.
  set (self1 := with_allocation_config self cs (top_mlp_activations self)
                  (fresh (dom h))) in *.
  set (h1 := <[fresh (dom h) := prod conv_out_dim :: dims]> h) in *.
  assert (Hdims1 : h1 !! top_mlp_dims self1 = Some dims).
  { subst h1. simpl. rewrite lookup_alloc_old; [done|by rewrite Hdims]. }
  pose proof (push_allocation_config_run self1 h1 cs' conv_out_dim dims
                Hpush' Hdim' Hdims1) as Hrun2.
  set (self2 := with_allocation_config self1 cs' (top_mlp_activations self1)
                  (fresh (dom h1))) in *.
  set (h2 := <[fresh (dom h1) := prod conv_out_dim :: dims]> h1) in *.
  assert (Hold1 : ∀ r, is_Some (h !! r) → h1 !! r = h !! r).
  { intros r' Hr'. by apply lookup_alloc_old. }
  assert (Hold2 : ∀ r, is_Some (h !! r) → h2 !! r = h !! r).
  { intros r' Hr'. subst h2. rewrite lookup_alloc_old; [by apply Hold1|].
    by rewrite Hold1. }
  assert (Hdims2 : h2 !! top_mlp_dims self2 = Some dims).
  { simpl. rewrite Hold2; [done|by rewrite Hdims]. }
  exists self1, h1, self2, h2.
  split; [done|]. split; [done|]. split; [done|].
  split; [done|]. split; [done|].
  split; [intros r' Hr'; split; [by apply Hold1|by apply Hold2]|].
  split; [by rewrite (output_dim_value self1 h1 dims), (output_dim_value self h dims)|].
  split; [by rewrite (output_dim_value self2 h2 dims), (output_dim_value self h dims)|].
  split; [exists (prod conv_out_dim); subst h1; simpl; apply lookup_insert_eq|].
  subst h2 h1. simpl. by rewrite !lookup_insert_eq.
Qed.

(** *** Construction *)

Lemma length_zip4 {A B C D} (a : list A) (b : list B) (c : list C) (d : list D) :
  length (zip4 a b c d) =
    ((length a `min` length b) `min` length c) `min` length d.
Proof.
  revert b c d. induction a as [|x a IH]; intros [|y b] [|z c] [|w d];
    simpl; try lia.
  rewrite IH. lia.
Qed.

Lemma lookup_zip4 {A B C D} (a : list A) (b : list B) (c : list C)
    (d : list D) (i : nat) :
  zip4 a b c d !! i =
    match a !! i, b !! i, c !! i, d !! i with
    | Some x, Some y, Some z, Some w => Some (x, y, z, w)
    | _, _, _, _ => None
    end.
Proof.
  revert b c d i. induction a as [|x a IH]; intros b c d i.
  { by destruct b, c, d. }
  destruct b as [|y b], c as [|z c], d as [|w d], i as [|i]; simpl;
    try done; try apply IH; repeat case_match; done.
Qed.

Lemma lookup_enumerate {A} (l : list A) (i : nat) :
  enumerate l !! i = (λ x, (i, x)) <$> l !! i.
Proof. unfold enumerate. apply list_lookup_imap. Qed.

Lemma length_enumerate {A} (l : list A) : length (enumerate l) = length l.
Proof. unfold enumerate. apply length_imap. Qed.

Lemma make_layer_conv_step (step : Z * Z) (mode : string)
    (item : nat * (Act * (Z * Z) * Z * (Z * Z))) :
  cl_conv_step (make_layer step mode item) = step.
Proof. by destruct item as [i [[[a f] n] p]]. Qed.

(** C6: for every construction, as many stages are built as the shortest
    of the four parameter lists has elements (longer lists are silently
    cut), and stage [i] is built from element [i] of each list, with the
    stride and border mode of the instance and the name
    ['conv_pool_i']. *)
Theorem stages_follow_zip (conv_activations : list Act) (num_channels : Z)
    (image_shape : Z * Z) (filter_sizes : list (Z * Z)) (feature_maps : list Z)
    (pooling_sizes : list (Z * Z)) (top_mlp_activations : list Act) r
    (step : option (Z * Z)) (mode : option string) (i : nat) :
  let self := LeNet_init conv_activations num_channels image_shape
                filter_sizes feature_maps pooling_sizes top_mlp_activations
                r step mode in
  length (layers self) =
    ((length conv_activations `min` length filter_sizes)
       `min` length feature_maps) `min` length pooling_sizes ∧
  layers self !! i =
    match conv_activations !! i, filter_sizes !! i,
          feature_maps !! i, pooling_sizes !! i with
    | Some activation, Some filter_size, Some num_filter, Some pooling_size =>
        Some {| cl_filter_size := filter_size;
                cl_num_filters := num_filter;
                cl_pooling_size := pooling_size;
                cl_activation := activation;
                cl_conv_step := conv_step self;
                cl_border_mode := border_mode self;
                cl_name := "conv_pool_" +:+ pretty i;
                cl_image_size := None;
                cl_num_channels := None |}
    | _, _, _, _ => None
    end.
Proof.
  intros self. unfold layers. simpl. split.
  - by rewrite length_fmap, length_enumerate, length_zip4.
  - rewrite list_lookup_fmap, lookup_enumerate, lookup_zip4.
    destruct (conv_activations !! i), (filter_sizes !! i),
      (feature_maps !! i), (pooling_sizes !! i); done.
Qed.

(** C8: when the stride argument is omitted (or [None]) the stride of the
    instance is (1, 1), and every stage is built with it; a stride that is
    supplied becomes the stride of the instance and of every stage. *)
Theorem conv_step_default (conv_activations : list Act) (num_channels : Z)
    (image_shape : Z * Z) (filter_sizes : list (Z * Z)) (feature_maps : list Z)
    (pooling_sizes : list (Z * Z)) (top_mlp_activations : list Act) r
    (border_mode : option string) (step : Z * Z) :
  let omitted := LeNet_init conv_activations num_channels image_shape
                   filter_sizes feature_maps pooling_sizes
                   top_mlp_activations r None border_mode in
  let supplied := LeNet_init conv_activations num_channels image_shape
                    filter_sizes feature_maps pooling_sizes
                    top_mlp_activations r (Some step) border_mode in
  conv_step omitted = (1, 1)%Z ∧
  Forall (λ layer, cl_conv_step layer = (1, 1)%Z) (layers omitted) ∧
  conv_step supplied = step ∧
  Forall (λ layer, cl_conv_step layer = step) (layers supplied).
Proof.
  intros omitted supplied. unfold layers. simpl.
  split; [done|]. split; [|split; [done|]].
  - apply Forall_fmap, Forall_true. intros item. apply make_layer_conv_step.
  - apply Forall_fmap, Forall_true. intros item. apply make_layer_conv_step.
Qed.

(** C9: for every construction the application methods are, in this order,
    those of the convolutional sequence, of the flattener and of the top
    MLP; applying the network computes the MLP of the flattened output of
    the convolutional sequence. *)
Theorem application_methods_order (conv_activations : list Act)
    (num_channels : Z) (image_shape : Z * Z) (filter_sizes : list (Z * Z))
    (feature_maps : list Z) (pooling_sizes : list (Z * Z))
    (top_mlp_activations : list Act) r (conv_step : option (Z * Z))
    (border_mode : option string) :
  let self := LeNet_init conv_activations num_channels image_shape
                filter_sizes feature_maps pooling_sizes top_mlp_activations
                r conv_step border_mode in
  application_methods self =
    [conv_sequence_apply; flattener_apply; top_mlp_apply] ∧
  ∀ (T : Type) (run : ApplicationMethod → T → T) (x : T),
    apply run self x =
      run top_mlp_apply (run flattener_apply (run conv_sequence_apply x)).
Proof. intros self. split; [reflexivity|]. intros T run x. reflexivity. Qed.

(** *** Propagation through the modelled convolutional sequence *)



Lemma check_dimension_inv (f : fraction) (n : Z) :
  check_dimension f = Ok n → whole f n.
Proof.
  unfold check_dimension, floordiv. case_bool_decide as Hden; [done|]. simpl.
  case_bool_decide as Hok; [|done]. intros [= <-].
  destruct Hok as [Hmod Hpos]. split; [done|]. split; [|done].
  pose proof (Z.div_mod (numerator f) (denominator f) Hden) as Hdm. lia.
Qed.



Lemma cl_output_size_inv (layer : ConvolutionalLayer Act)
    (image_size out : Z * Z) :
  cl_output_size layer image_size = Ok out → stage_resolves layer image_size out.
Proof.
  unfold cl_output_size, conv_output_dim, pool_output_dim.
  destruct (check_dimension (conv_dimension _ image_size.1 _ _))
    as [ch|] eqn:Hch; [|done]. simpl.
  destruct (check_dimension (conv_dimension _ image_size.2 _ _))
    as [cw|] eqn:Hcw; [|done]. simpl.
  destruct (check_dimension (pool_dimension ch _)) as [ph|] eqn:Hph; [|done]. simpl.
  destruct (check_dimension (pool_dimension cw _)) as [pw|] eqn:Hpw; [|done]. simpl.
  intros [= <-]. exists ch, cw.
  split; [by apply check_dimension_inv|].
  split; [by apply check_dimension_inv|].
  split; by apply check_dimension_inv.
Qed.



(** No dimension that is fractional or not positive passes unnoticed: when
    the propagation returns, every stage has resolved. *)
Lemma push_layers_inv (stages stages' : list (ConvolutionalLayer Act))
    (first : nat) (num_channels : Z) (image_size : Z * Z) :
  push_layers first stages num_channels image_size = Ok stages' →
  ∃ out, all_resolve stages image_size out.
Proof.
  revert stages' first num_channels image_size.
  induction stages as [|layer rest IH]; intros stages' first num_channels image_size.
  { intros _. eexists. constructor. }
  simpl. destruct (cl_output_size layer image_size) as [mid|e] eqn:Hmid;
    [|by destruct e].
  simpl. destruct (push_layers (S first) rest (cl_num_filters layer) mid)
    as [rest'|] eqn:Hrest; [|done].
  intros _. destruct (IH _ _ _ _ Hrest) as [out Hout].
  exists out. econstructor; [by apply cl_output_size_inv|done].
Qed.


(** Pushing the shapes again changes nothing: the stages already hold the
    shapes they would receive. *)
Lemma push_layers_idempotent (stages stages' : list (ConvolutionalLayer Act))
    (first : nat) (num_channels : Z) (image_size : Z * Z) :
  push_layers first stages num_channels image_size = Ok stages' →
  push_layers first stages' num_channels image_size = Ok stages'.
Proof.
  revert stages' first num_channels image_size.
  induction stages as [|layer rest IH]; intros stages' first num_channels image_size.
  { by intros [= <-]. }
  simpl. destruct (cl_output_size layer image_size) as [out|e] eqn:Hout;
    [|by destruct e].
  simpl. destruct (push_layers (S first) rest (cl_num_filters layer) out)
    as [rest'|] eqn:Hrest; [|done].
  simpl. intros [= <-]. simpl.
  change (cl_output_size (cl_with_input layer num_channels image_size) image_size)
    with (cl_output_size layer image_size).
  rewrite Hout. simpl. by rewrite (IH _ _ _ _ Hrest).
Qed.

Lemma blocks_push_idempotent (cs cs' : ConvolutionalSequence Act) :
  blocks_push_allocation_config cs = Ok cs' →
  blocks_push_allocation_config cs' = Ok cs'.
Proof.
  unfold blocks_push_allocation_config.
  destruct (push_layers 0 (cs_layers cs) (cs_num_channels cs) (cs_image_size cs))
    as [stages'|] eqn:Hpush; [|done].
  simpl. intros [= <-]. simpl.
  by rewrite (push_layers_idempotent _ _ _ _ _ Hpush).
Qed.

(** C5, as the code has it: with no stage at all (all four parameter lists
    empty) the instance is built, with an empty list of stages, and shape
    propagation makes the first width of the classifier head [numpy.prod]
    of (channels, height, width) of the input image: for 64-bit integers
    the product channels x height x width reduced to 64 bits, which is the
    product itself whenever that fits in 64 bits. *)
Theorem empty_stages_flatten_input (num_channels : Z) (image_shape : Z * Z)
    (top_mlp_activations : list Act) r (conv_step : option (Z * Z))
    (border_mode : option string) h dims :
  let self := LeNet_init [] num_channels image_shape [] [] []
                top_mlp_activations r conv_step border_mode in
  let size := (num_channels * image_shape.1 * image_shape.2)%Z in
  int64 num_channels → int64 image_shape.1 → int64 image_shape.2 →
  h !! r = Some dims →
  layers self = [] ∧
  ∃ self' h',
    _push_allocation_config (protocol := blocks_protocol) self h = Ok (self', h') ∧
    h' !! mlp_dims (top_mlp self') = Some (wrap64 size :: dims) ∧
    (int64 size → h' !! mlp_dims (top_mlp self') = Some (size :: dims)).
Proof.
  intros self size _ _ _ Hdims. split; [done|].
  assert (Hprod : prod [num_channels; image_shape.1; image_shape.2] = wrap64 size).
  { unfold prod, size. simpl. f_equal. lia. }
  eexists _, _. split.
  - by apply (push_allocation_config_run (protocol := blocks_protocol) self h
                (conv_sequence self)
                [num_channels; image_shape.1; image_shape.2] dims).
  - simpl. rewrite lookup_insert_eq, Hprod. split; [done|].
    intros Hfits. by rewrite wrap64_id.
Qed.


(** Conversely, a propagation that returns has met no such dimension. *)
Lemma push_returns_all_resolve self h self' h' :
  _push_allocation_config (protocol := blocks_protocol) self h = Ok (self', h') →
  ∃ out, all_resolve (layers self) (cs_image_size (conv_sequence self)) out.
Proof.
  unfold _push_allocation_config, mbind, M_bind, lift. simpl.
  unfold blocks_push_allocation_config. fold (layers self).
  destruct (push_layers 0 (layers self) _ _) as [stages'|] eqn:Hpush; [|done].
  intros _. by eapply push_layers_inv.
Qed.

End Properties.

(** ** The example configuration *)

Example main_convnet_default :
  main_convnet None None None None ∅ = Ok (lenet5, lenet5_heap).
Proof. reflexivity. Qed.

Example lenet5_stage_names :
  cl_name <$> layers lenet5 = ["conv_pool_0"; "conv_pool_1"].
Proof. reflexivity. Qed.

(** C3: in the configuration of [main] (two stages, 5x5 filters, 2x2
    pooling, 'full' border mode, stride 1, a 28x28 image with one channel, 6
    and 16 feature maps) the full convolutions give 32 and 20, the poolings
    16 and 10; every stage has a positive output size, 16x16 then 10x10; and
    the classifier head receives 16 x 10 x 10 = 1600 features. *)
Theorem main_flattened_features :
  conv_output_dim "full" 28 5 1 = Ok 32%Z ∧
  pool_output_dim 32 2 = Ok 16%Z ∧
  conv_output_dim "full" 16 5 1 = Ok 20%Z ∧
  pool_output_dim 20 2 = Ok 10%Z ∧
  ∃ convnet h convnet' h',
    main_convnet None None None None ∅ = Ok (convnet, h) ∧
    _push_allocation_config (protocol := blocks_protocol) convnet h = Ok (convnet', h') ∧
    cl_get_output_size <$> layers convnet' = [Ok (16, 16)%Z; Ok (10, 10)%Z] ∧
    Forall (λ out, ∃ height width, out = Ok (height, width) ∧
                                   (0 < height)%Z ∧ (0 < width)%Z)
           (cl_get_output_size <$> layers convnet') ∧
    blocks_get_dim_output (conv_sequence convnet') = Ok [16; 10; 10]%Z ∧
    h' !! mlp_dims (top_mlp convnet') = Some [1600; 120; 84; 10]%Z ∧
    (16 * 10 * 10 = 1600)%Z.
Proof.
  do 4 (split; [reflexivity|]).
  eexists _, _, _, _.
  split; [reflexivity|]. split; [vm_compute; reflexivity|].
  split; [reflexivity|].
  split; [|split; [reflexivity|split; [reflexivity|reflexivity]]].
  simpl.
  apply Forall_cons; split; [exists 16%Z, 16%Z; split; [reflexivity|lia]|].
  apply Forall_cons; split; [exists 10%Z, 10%Z; split; [reflexivity|lia]|].
  apply Forall_nil_2.
Qed.

(** The product is not what propagation stores when it does not fit in 64
    bits: the one-stage network resolves to (4294967296, 4294967296, 1),
    whose product is 2^64, and the classifier head receives 0. *)
Lemma product_wraps_around :
  ∃ self' h',
    _push_allocation_config (protocol := blocks_protocol)
      wide_convnet narrow_heap = Ok (self', h') ∧
    blocks_get_dim_output (conv_sequence self')
      = Ok [4294967296; 4294967296; 1]%Z ∧
    foldr Z.mul 1%Z [4294967296; 4294967296; 1]%Z = 18446744073709551616%Z ∧
    h' !! mlp_dims (top_mlp self') = Some [0; 10]%Z ∧
    h' !! mlp_dims (top_mlp self')
      ≠ Some ([foldr Z.mul 1%Z [4294967296; 4294967296; 1]%Z] ++ [10]%Z).
Proof.
  eexists _, _. split; [vm_compute; reflexivity|].
  split; [reflexivity|]. split; [reflexivity|].
  split; [reflexivity|]. by vm_compute.
Qed.

(** Likewise without any stage: 4294967296 channels on a 4294967296 x 1
    image flatten to 2^64 features, and the classifier head receives 0. *)
Lemma flattened_input_wraps_around :
  layers wide_flat_convnet = [] ∧
  (num_channels wide_flat_convnet * (image_shape wide_flat_convnet).1
     * (image_shape wide_flat_convnet).2 = 18446744073709551616)%Z ∧
  ∃ self' h',
    _push_allocation_config (protocol := blocks_protocol)
      wide_flat_convnet narrow_heap = Ok (self', h') ∧
    h' !! mlp_dims (top_mlp self') = Some [0; 10]%Z ∧
    h' !! mlp_dims (top_mlp self') ≠ Some [18446744073709551616; 10]%Z.
Proof.
  split; [reflexivity|]. split; [reflexivity|].
  eexists _, _. split; [vm_compute; reflexivity|].
  split; [reflexivity|]. by vm_compute.
Qed.

(** A fractional dimension: a 5x5 filter moved by steps of 2 over 28 rows
    would take 25/2 positions. *)
Example fractional_dimension_rejected :
  conv_output_dim "valid" 28 5 2 = Raise (DimensionError (Fraction 25 2)) ∧
  fractional (Fraction 25 2).
Proof.
  split; [reflexivity|]. split; [done|].
  intros [n Hn]. simpl in Hn. lia.
Qed.


(** ** Instances of the conditional statements *)

Lemma push_sets_top_mlp_dims_witness :
  blocks_push_allocation_config (conv_sequence lenet5) = Ok lenet5_resolved ∧
  blocks_get_dim_output lenet5_resolved = Ok [16; 10; 10]%Z ∧
  lenet5_heap !! top_mlp_dims lenet5 = Some [120; 84; 10]%Z ∧
  ∃ self' h',
    _push_allocation_config (protocol := blocks_protocol) lenet5 lenet5_heap
      = Ok (self', h') ∧
    conv_sequence self' = lenet5_resolved ∧
    h' !! mlp_dims (top_mlp self') =
      Some ([wrap64 (foldr Z.mul 1%Z [16; 10; 10]%Z)] ++ [120; 84; 10]%Z) ∧
    (int64 (foldr Z.mul 1%Z [16; 10; 10]%Z) →
     h' !! mlp_dims (top_mlp self') =
       Some ([foldr Z.mul 1%Z [16; 10; 10]%Z] ++ [120; 84; 10]%Z)).
Proof.
  do 3 (split; [reflexivity|]).
  apply (push_sets_top_mlp_dims (protocol := blocks_protocol) lenet5
           lenet5_heap lenet5_resolved [16; 10; 10]%Z [120; 84; 10]%Z);
    [reflexivity|reflexivity| |reflexivity].
  repeat (apply Forall_cons; split; [unfold int64; lia|]). apply Forall_nil_2.
Defined.

Lemma output_width_after_push_witness :
  ∃ self' h',
    _push_allocation_config (protocol := blocks_protocol) lenet5 lenet5_heap
      = Ok (self', h') ∧
    output_dim self' h' = Ok (10%Z, h') ∧
    ∃ pushed, h' !! mlp_dims (top_mlp self') = Some pushed ∧
              last pushed = Some 10%Z.
Proof.
  apply (output_width_after_push (protocol := blocks_protocol)
           [Rectifier; Rectifier] 1 (28, 28)%Z [(5, 5); (5, 5)]%Z [6; 16]%Z
           [(2, 2); (2, 2)]%Z [Rectifier; Rectifier; Softmax] 1%positive None
           (Some "full") lenet5_heap lenet5_resolved [16; 10; 10]%Z
           [120; 84; 10]%Z 10%Z);
    reflexivity.
Defined.

Lemma output_dim_set_then_get_witness :
  lenet5_heap !! top_mlp_dims lenet5 = Some ([120; 84] ++ [10])%Z ∧
  output_dim lenet5 lenet5_heap = Ok (10%Z, lenet5_heap) ∧
  ∃ h',
    set_output_dim lenet5 47 lenet5_heap = Ok ((), h') ∧
    output_dim lenet5 h' = Ok (47%Z, h') ∧
    h' !! top_mlp_dims lenet5 = Some ([120; 84] ++ [47])%Z ∧
    last ([120; 84] ++ [47])%Z = Some 47%Z ∧
    (∀ i, i ≠ length [120; 84]%Z →
          ([120; 84] ++ [47])%Z !! i = ([120; 84] ++ [10])%Z !! i) ∧
    (∀ r, r ≠ top_mlp_dims lenet5 → h' !! r = lenet5_heap !! r).
Proof.
  split; [reflexivity|].
  apply (output_dim_set_then_get lenet5 lenet5_heap [120; 84]%Z 10%Z 47%Z).
  reflexivity.
Defined.

Lemma empty_stages_flatten_input_witness :
  narrow_heap !! 1%positive = Some [10]%Z ∧
  layers flat_convnet = [] ∧
  ∃ self' h',
    _push_allocation_config (protocol := blocks_protocol) flat_convnet
      narrow_heap = Ok (self', h') ∧
    h' !! mlp_dims (top_mlp self') = Some (wrap64 (1 * 28 * 28) :: [10])%Z ∧
    (int64 (1 * 28 * 28) →
     h' !! mlp_dims (top_mlp self') = Some ((1 * 28 * 28) :: [10])%Z).
Proof.
  split; [reflexivity|].
  apply (empty_stages_flatten_input (Act := Brick) 1 (28, 28)%Z [Softmax]
           1%positive None None narrow_heap [10]%Z);
    [unfold int64; simpl; lia..|reflexivity].
Defined.


Lemma push_leaves_top_mlp_dims_witness :
  blocks_push_allocation_config lenet5_resolved = Ok lenet5_resolved ∧
  ∃ self1 h1 self2 h2,
    _push_allocation_config (protocol := blocks_protocol) lenet5 lenet5_heap
      = Ok (self1, h1) ∧
    _push_allocation_config (protocol := blocks_protocol) self1 h1
      = Ok (self2, h2) ∧
    self1 = with_allocation_config lenet5 lenet5_resolved
              (top_mlp_activations lenet5) (mlp_dims (top_mlp self1)) ∧
    h1 !! top_mlp_dims self1 = Some [120; 84; 10]%Z ∧
    h2 !! top_mlp_dims self2 = Some [120; 84; 10]%Z ∧
    (∀ r, is_Some (lenet5_heap !! r) →
          h1 !! r = lenet5_heap !! r ∧ h2 !! r = lenet5_heap !! r) ∧
    value (output_dim self1 h1) = value (output_dim lenet5 lenet5_heap) ∧
    value (output_dim self2 h2) = value (output_dim lenet5 lenet5_heap) ∧
    (∃ width, h1 !! mlp_dims (top_mlp self1)
                = Some ([width] ++ [120; 84; 10]%Z)) ∧
    h2 !! mlp_dims (top_mlp self2) = h1 !! mlp_dims (top_mlp self1).
Proof.
  split; [reflexivity|].
  apply (push_leaves_top_mlp_dims (protocol := blocks_protocol) lenet5
           lenet5_heap lenet5_resolved lenet5_resolved [16; 10; 10]%Z
           [120; 84; 10]%Z);
    reflexivity.
Defined.

(** ** Further properties of the class and of [main] *)

Section Extensions.
Context {Act : Type}.
Implicit Types (self : LeNet Act) (h : heap) (dims : list Z) (r : loc).

(** *** The output width and the shared list of widths *)

(** X1: the constructor keeps the caller's list, it does not copy it: a
    width set through one instance is written into that list and is what
    every other instance built on the same list reads. *)
Theorem output_dim_shared_list
    (conv_activations1 conv_activations2 : list Act)
    (num_channels1 num_channels2 : Z) (image_shape1 image_shape2 : Z * Z)
    (filter_sizes1 filter_sizes2 : list (Z * Z))
    (feature_maps1 feature_maps2 : list Z)
    (pooling_sizes1 pooling_sizes2 : list (Z * Z))
    (top_mlp_activations1 top_mlp_activations2 : list Act)
    (step1 step2 : option (Z * Z)) (mode1 mode2 : option string)
    r h (init : list Z) (old N : Z) :
  let one := LeNet_init conv_activations1 num_channels1 image_shape1
               filter_sizes1 feature_maps1 pooling_sizes1
               top_mlp_activations1 r step1 mode1 in
  let other := LeNet_init conv_activations2 num_channels2 image_shape2
                 filter_sizes2 feature_maps2 pooling_sizes2
                 top_mlp_activations2 r step2 mode2 in
  h !! r = Some (init ++ [old]) →
  ∃ h',
    set_output_dim one N h = Ok ((), h') ∧
    h' !! r = Some (init ++ [N]) ∧
    output_dim other h' = Ok (N, h').
Proof.
  intros one other Hdims.
  exists (<[r := init ++ [N]]> h).
  split; [by apply (set_output_dim_run one h init old N)|].
  split; [apply lookup_insert_eq|].
  apply (output_dim_run other _ init N). simpl. apply lookup_insert_eq.
Qed.

(** X2: a width set before shape propagation reaches the classifier head:
    propagation then gives [top_mlp.dims] a first width, the unchanged
    leading widths and the new last width. *)
Theorem set_then_push {protocol : ShapeProtocol Act} self h cs conv_out_dim
    (init : list Z) (old N : Z) :
  cs_push_allocation_config (conv_sequence self) = Ok cs →
  cs_get_dim_output cs = Ok conv_out_dim →
  h !! top_mlp_dims self = Some (init ++ [old]) →
  ∃ h1 self' h',
    set_output_dim self N h = Ok ((), h1) ∧
    _push_allocation_config self h1 = Ok (self', h') ∧
    (∃ width, h' !! mlp_dims (top_mlp self') = Some (width :: init ++ [N])) ∧
    output_dim self' h' = Ok (N, h').
Proof.
  intros Hpush Hdim Hdims.
  set (h1 := <[top_mlp_dims self := init ++ [N]]> h).
  assert (Hdims1 : h1 !! top_mlp_dims self = Some (init ++ [N])).
  { apply lookup_insert_eq. }
  eexists h1, _, _.
  split; [by apply (set_output_dim_run self h init old N)|].
  split; [by apply (push_allocation_config_run self h1 cs conv_out_dim (init ++ [N]))|].
  split; [exists (prod conv_out_dim); simpl; apply lookup_insert_eq|].
  apply output_dim_run with init. simpl.
  rewrite lookup_alloc_old; [done|by rewrite Hdims1].
Qed.

(** X3: a width set after shape propagation does not reach the classifier
    head.  Propagation gave [top_mlp.dims] a list object of its own, so the
    setter, which writes into [top_mlp_dims], leaves it as it was:
    [output_dim] reads the new width while [top_mlp.dims] still ends in the
    old one. *)
Theorem set_after_push_is_stale {protocol : ShapeProtocol Act} self h cs
    conv_out_dim (init : list Z) (old N : Z) :
  cs_push_allocation_config (conv_sequence self) = Ok cs →
  cs_get_dim_output cs = Ok conv_out_dim →
  h !! top_mlp_dims self = Some (init ++ [old]) →
  ∃ self' h1 h2,
    _push_allocation_config self h = Ok (self', h1) ∧
    set_output_dim self' N h1 = Ok ((), h2) ∧
    mlp_dims (top_mlp self') ≠ top_mlp_dims self' ∧
    output_dim self' h2 = Ok (N, h2) ∧
    ∃ width,
      h1 !! mlp_dims (top_mlp self') = Some (width :: init ++ [old]) ∧
      h2 !! mlp_dims (top_mlp self') = Some (width :: init ++ [old]).
Proof.
  intros Hpush Hdim Hdims.
  pose proof (push_allocation_config_run self h cs conv_out_dim _
                Hpush Hdim Hdims) as Hrun.
  set (self' := with_allocation_config self cs (top_mlp_activations self)
                  (fresh (dom h))) in *.
  set (h1 := <[fresh (dom h) := prod conv_out_dim :: init ++ [old]]> h) in *.
  assert (Hne : fresh (dom h) ≠ top_mlp_dims self).
  { intros Heq. pose proof (fresh_not_allocated h) as Hfresh.
    rewrite Heq, Hdims in Hfresh. done. }
  assert (Hdims1 : h1 !! top_mlp_dims self' = Some (init ++ [old])).
  { subst h1. simpl. by rewrite lookup_insert_ne. }
  exists self', h1, (<[top_mlp_dims self' := init ++ [N]]> h1).
  split; [done|].
  split; [by apply (set_output_dim_run self' h1 init old N)|].
  split; [done|].
  split; [apply output_dim_run with init; apply lookup_insert_eq|].
  exists (prod conv_out_dim).
  split; [subst h1; simpl; apply lookup_insert_eq|].
  simpl. rewrite lookup_insert_ne by done. subst h1. apply lookup_insert_eq.
Qed.

(** X4: of two widths set one after the other only the second remains:
    the store is the one a single set of the second width gives. *)
Theorem set_output_dim_twice self h (init : list Z) (old N1 N2 : Z) :
  h !! top_mlp_dims self = Some (init ++ [old]) →
  ∃ h1 h2,
    set_output_dim self N1 h = Ok ((), h1) ∧
    set_output_dim self N2 h1 = Ok ((), h2) ∧
    set_output_dim self N2 h = Ok ((), h2).
Proof.
  intros Hdims.
  exists (<[top_mlp_dims self := init ++ [N1]]> h),
         (<[top_mlp_dims self := init ++ [N2]]> h).
  split; [by apply (set_output_dim_run self h init old N1)|].
  split; [|by apply (set_output_dim_run self h init old N2)].
  rewrite (set_output_dim_run self _ init N1 N2) by apply lookup_insert_eq.
  by rewrite insert_insert_eq.
Qed.

(** X5: writing back the width that was read changes nothing: the store
    after the set is the store before it. *)
Theorem set_output_dim_read_back self h (n : Z) :
  output_dim self h = Ok (n, h) →
  set_output_dim self n h = Ok ((), h).
Proof.
  unfold output_dim, mbind, M_bind, load, lift.
  destruct (h !! top_mlp_dims self) as [dims|] eqn:Hdims; [|done].
  destruct (getitem dims (-1)) as [x|] eqn:Hget; [|done].
  intros [= ->].
  destruct (decide (dims = [])) as [->|Hne].
  { by rewrite getitem_nil in Hget. }
  destruct (exists_last Hne) as (init & old & ->).
  rewrite getitem_last in Hget. injection Hget as ->.
  rewrite (set_output_dim_run self h init n n Hdims).
  by rewrite insert_id.
Qed.

(** X6: with an empty list of widths the two accessors raise [IndexError],
    and yet shape propagation goes through: it needs no last entry, and
    leaves the classifier head with a single width. *)
Theorem empty_widths {protocol : ShapeProtocol Act} self h cs conv_out_dim (N : Z) :
  cs_push_allocation_config (conv_sequence self) = Ok cs →
  cs_get_dim_output cs = Ok conv_out_dim →
  h !! top_mlp_dims self = Some [] →
  output_dim self h = Raise IndexError ∧
  set_output_dim self N h = Raise IndexError ∧
  ∃ self' h',
    _push_allocation_config self h = Ok (self', h') ∧
    (∃ width, h' !! mlp_dims (top_mlp self') = Some [width]) ∧
    output_dim self' h' = Raise IndexError.
Proof.
  intros Hpush Hdim Hdims.
  destruct (output_dim_empty self h N Hdims) as [Hget Hset].
  split; [done|]. split; [done|].
  eexists _, _.
  split; [by apply (push_allocation_config_run self h cs conv_out_dim [])|].
  split; [exists (prod conv_out_dim); simpl; apply lookup_insert_eq|].
  apply (output_dim_empty _ _ N). simpl.
  rewrite lookup_alloc_old; [done|by rewrite Hdims].
Qed.

(** X7: shape propagation raises nothing of its own: on a store in which
    the list of widths exists, it raises exactly when the convolutional
    sequence does, while resolving its shapes or while reporting its output
    shape, and then with the same exception. *)
Theorem push_raises_with_sequence {protocol : ShapeProtocol Act} self h dims
    (e : exn) :
  h !! top_mlp_dims self = Some dims →
  _push_allocation_config self h = Raise e ↔
    cs_push_allocation_config (conv_sequence self) = Raise e ∨
    ∃ cs, cs_push_allocation_config (conv_sequence self) = Ok cs ∧
          cs_get_dim_output cs = Raise e.
Proof.
  intros Hdims.
  unfold _push_allocation_config, mbind, M_bind, lift, load, alloc, mret, M_ret.
  destruct (cs_push_allocation_config (conv_sequence self)) as [cs|e1] eqn:Hpush.
  - destruct (cs_get_dim_output cs) as [d|e2] eqn:Hdim.
    + rewrite Hdims. split; [done|]. intros [?|(cs' & [= <-] & ?)]; congruence.
    + split.
      * intros [= ->]. right. by exists cs.
      * intros [?|(cs' & [= <-] & ?)]; congruence.
  - split.
    + intros [= ->]. by left.
    + intros [?|(cs' & ? & _)]; congruence.
Qed.

(** *** Construction *)

Lemma make_layer_border_mode (step : Z * Z) (mode : string)
    (item : nat * (Act * (Z * Z) * Z * (Z * Z))) :
  cl_border_mode (make_layer step mode item) = mode.
Proof. by destruct item as [i [[[a f] n] p]]. Qed.

Lemma lookup_layer_name (conv_activations : list Act) (num_channels : Z)
    (image_shape : Z * Z) (filter_sizes : list (Z * Z)) (feature_maps : list Z)
    (pooling_sizes : list (Z * Z)) (top_mlp_activations : list Act) r
    (step : option (Z * Z)) (mode : option string) (i : nat)
    (layer : ConvolutionalLayer Act) :
  layers (LeNet_init conv_activations num_channels image_shape filter_sizes
            feature_maps pooling_sizes top_mlp_activations r step mode) !! i
    = Some layer →
  cl_name layer = "conv_pool_" +:+ pretty i.
Proof.
  unfold layers. simpl. rewrite list_lookup_fmap, lookup_enumerate.
  destruct (zip4 _ _ _ _ !! i) as [[[[a f] n] p]|]; simpl; [|done].
  by intros [= <-].
Qed.

Lemma zip4_take {A B C D} (n : nat) (a : list A) (b : list B) (c : list C)
    (d : list D) :
  zip4 (take n a) (take n b) (take n c) (take n d) = take n (zip4 a b c d).
Proof.
  revert a b c d. induction n as [|n IH]; intros a b c d.
  { by destruct a, b, c, d. }
  destruct a as [|x a], b as [|y b], c as [|z c], d as [|w d]; simpl;
    try done; try (by destruct (take n a)); try (by destruct (take n a), (take n b));
    try (by destruct (take n a), (take n b), (take n c)).
  by rewrite IH.
Qed.

(** X8: when the border mode is omitted the instance and every stage get
    ['valid']; a border mode that is supplied becomes that of the instance
    and of every stage. *)
Theorem border_mode_default (conv_activations : list Act) (num_channels : Z)
    (image_shape : Z * Z) (filter_sizes : list (Z * Z)) (feature_maps : list Z)
    (pooling_sizes : list (Z * Z)) (top_mlp_activations : list Act) r
    (step : option (Z * Z)) (mode : string) :
  let omitted := LeNet_init conv_activations num_channels image_shape
                   filter_sizes feature_maps pooling_sizes
                   top_mlp_activations r step None in
  let supplied := LeNet_init conv_activations num_channels image_shape
                    filter_sizes feature_maps pooling_sizes
                    top_mlp_activations r step (Some mode) in
  border_mode omitted = "valid" ∧
  Forall (λ layer, cl_border_mode layer = "valid") (layers omitted) ∧
  border_mode supplied = mode ∧
  Forall (λ layer, cl_border_mode layer = mode) (layers supplied).
Proof.
  intros omitted supplied. unfold layers. simpl.
  split; [done|]. split; [|split; [done|]].
  - apply Forall_fmap, Forall_true. intros item. apply make_layer_border_mode.
  - apply Forall_fmap, Forall_true. intros item. apply make_layer_border_mode.
Qed.

(** X9: the stages of an instance have pairwise distinct names. *)
Theorem stage_names_distinct (conv_activations : list Act) (num_channels : Z)
    (image_shape : Z * Z) (filter_sizes : list (Z * Z)) (feature_maps : list Z)
    (pooling_sizes : list (Z * Z)) (top_mlp_activations : list Act) r
    (step : option (Z * Z)) (mode : option string) :
  NoDup (cl_name <$>
           layers (LeNet_init conv_activations num_channels image_shape
                     filter_sizes feature_maps pooling_sizes
                     top_mlp_activations r step mode)).
Proof.
  apply NoDup_alt. intros i j name. rewrite !list_lookup_fmap.
  destruct (layers _ !! i) as [layer_i|] eqn:Hi; [|done].
  destruct (layers _ !! j) as [layer_j|] eqn:Hj; [|done].
  simpl. intros [= Hni] [= Hnj].
  apply lookup_layer_name in Hi, Hj.
  rewrite Hi in Hni. rewrite Hj in Hnj. rewrite <- Hnj in Hni.
  apply (inj (String.append "conv_pool_")) in Hni.
  by apply (inj pretty) in Hni.
Qed.

(** X10: what the parameter lists hold beyond the length of the shortest
    one plays no part: cutting all four to that length gives the very same
    instance. *)
Theorem surplus_parameters_ignored (conv_activations : list Act)
    (num_channels : Z) (image_shape : Z * Z) (filter_sizes : list (Z * Z))
    (feature_maps : list Z) (pooling_sizes : list (Z * Z))
    (top_mlp_activations : list Act) r (step : option (Z * Z))
    (mode : option string) :
  let n := ((length conv_activations `min` length filter_sizes)
              `min` length feature_maps) `min` length pooling_sizes in
  LeNet_init (take n conv_activations) num_channels image_shape
    (take n filter_sizes) (take n feature_maps) (take n pooling_sizes)
    top_mlp_activations r step mode
  = LeNet_init conv_activations num_channels image_shape filter_sizes
      feature_maps pooling_sizes top_mlp_activations r step mode.
Proof.
  intros n. unfold LeNet_init.
  rewrite zip4_take, take_ge; [done|].
  rewrite length_zip4. done.
Qed.

End Extensions.

(** *** The network [main] builds *)

Lemma lookup_layers_init {Act : Type} (conv_activations : list Act)
    (num_channels : Z) (image_shape : Z * Z) (filter_sizes : list (Z * Z))
    (feature_maps : list Z) (pooling_sizes : list (Z * Z))
    (top_mlp_activations : list Act) (r : loc) (step : option (Z * Z))
    (mode : option string) (i : nat) :
  layers (LeNet_init conv_activations num_channels image_shape filter_sizes
            feature_maps pooling_sizes top_mlp_activations r step mode) !! i
  = make_layer (default (1, 1)%Z step) (default "valid" mode) <$>
      ((λ item, (i, item)) <$>
         zip4 conv_activations filter_sizes feature_maps pooling_sizes !! i).
Proof.
  unfold layers. simpl. rewrite list_lookup_fmap, lookup_enumerate.
  by destruct step.
Qed.

Lemma length_layers_init {Act : Type} (conv_activations : list Act)
    (num_channels : Z) (image_shape : Z * Z) (filter_sizes : list (Z * Z))
    (feature_maps : list Z) (pooling_sizes : list (Z * Z))
    (top_mlp_activations : list Act) (r : loc) (step : option (Z * Z))
    (mode : option string) :
  length (layers (LeNet_init conv_activations num_channels image_shape
                    filter_sizes feature_maps pooling_sizes
                    top_mlp_activations r step mode))
  = length (zip4 conv_activations filter_sizes feature_maps pooling_sizes).
Proof. unfold layers. simpl. by rewrite length_fmap, length_enumerate. Qed.

Lemma main_convnet_run (feature_maps mlp_hiddens conv_sizes pool_sizes
    : option (list Z)) (h : heap) :
  main_convnet feature_maps mlp_hiddens conv_sizes pool_sizes h =
    Ok (LeNet_init ((λ _, Rectifier) <$> default [6; 16]%Z feature_maps) 1
          (28, 28)%Z
          (zip (default [5; 5]%Z conv_sizes) (default [5; 5]%Z conv_sizes))
          (default [6; 16]%Z feature_maps)
          (zip (default [2; 2]%Z pool_sizes) (default [2; 2]%Z pool_sizes))
          (((λ _, Rectifier) <$> default [120; 84]%Z mlp_hiddens) ++ [Softmax])
          (fresh (dom h)) None (Some "full"),
        <[fresh (dom h) := default [120; 84]%Z mlp_hiddens ++ [10%Z]]> h).
Proof. reflexivity. Qed.

(** X11: whatever lists [main] is given, it builds its network, on a list
    of widths that is a new object (no list of the store is touched) and
    holds the hidden widths followed by 10; the output width of the network
    is 10, and the classifier head has one activation per width,
    rectifiers throughout and a softmax last. *)
Theorem main_convnet_head (feature_maps mlp_hiddens conv_sizes pool_sizes
    : option (list Z)) (h : heap) :
  let hiddens := default [120; 84]%Z mlp_hiddens in
  ∃ convnet h',
    main_convnet feature_maps mlp_hiddens conv_sizes pool_sizes h
      = Ok (convnet, h') ∧
    h !! top_mlp_dims convnet = None ∧
    (∀ r, is_Some (h !! r) → h' !! r = h !! r) ∧
    h' !! top_mlp_dims convnet = Some (hiddens ++ [10%Z]) ∧
    output_dim convnet h' = Ok (10%Z, h') ∧
    top_mlp_activations convnet
      = replicate (length hiddens) Rectifier ++ [Softmax] ∧
    length (top_mlp_activations convnet) = length (hiddens ++ [10%Z]).
Proof.
  intros hiddens. eexists _, _.
  split; [apply main_convnet_run|]. simpl. fold hiddens.
  split; [apply fresh_not_allocated|].
  split; [intros r Hr; by apply lookup_alloc_old|].
  split; [apply lookup_insert_eq|].
  split; [apply (output_dim_run _ _ hiddens); apply lookup_insert_eq|].
  split; [f_equal; by apply const_fmap|].
  by rewrite !length_app, length_fmap.
Qed.

(** X12: the network [main] builds has as many stages as the shortest of
    [feature_maps], [conv_sizes] and [pool_sizes] has entries; stage [i]
    has a square filter of the [i]-th convolution size, a square pooling
    window of the [i]-th pooling size, the [i]-th number of feature maps, a
    rectifier, stride 1 and the 'full' border mode. *)
Theorem main_convnet_stages (feature_maps mlp_hiddens conv_sizes pool_sizes
    : option (list Z)) (h : heap) (i : nat) :
  let maps := default [6; 16]%Z feature_maps in
  let convs := default [5; 5]%Z conv_sizes in
  let pools := default [2; 2]%Z pool_sizes in
  ∃ convnet h',
    main_convnet feature_maps mlp_hiddens conv_sizes pool_sizes h
      = Ok (convnet, h') ∧
    length (layers convnet) = (length maps `min` length convs) `min` length pools ∧
    layers convnet !! i =
      match maps !! i, convs !! i, pools !! i with
      | Some num_filter, Some conv_size, Some pool_size =>
          Some {| cl_filter_size := (conv_size, conv_size);
                  cl_num_filters := num_filter;
                  cl_pooling_size := (pool_size, pool_size);
                  cl_activation := Rectifier;
                  cl_conv_step := (1, 1)%Z;
                  cl_border_mode := "full";
                  cl_name := "conv_pool_" +:+ pretty i;
                  cl_image_size := None;
                  cl_num_channels := None |}
      | _, _, _ => None
      end.
Proof.
  intros maps convs pools. eexists _, _.
  split; [apply main_convnet_run|]. fold maps convs pools. split.
  - rewrite length_layers_init, length_zip4, length_fmap, !length_zip_with. lia.
  - rewrite lookup_layers_init, lookup_zip4, list_lookup_fmap.
    rewrite !lookup_zip_with.
    by destruct (maps !! i), (convs !! i), (pools !! i).
Qed.

(** X13: for the network [main] builds, shape propagation leaves the
    classifier head with a first width followed by the hidden widths and
    10, that is with exactly one width more than it has activations. *)
Theorem main_head_after_push {protocol : ShapeProtocol Brick}
    (feature_maps mlp_hiddens conv_sizes pool_sizes : option (list Z))
    (h h1 : heap) (convnet : LeNet Brick) (cs : ConvolutionalSequence Brick)
    (conv_out_dim : list Z) :
  main_convnet feature_maps mlp_hiddens conv_sizes pool_sizes h
    = Ok (convnet, h1) →
  cs_push_allocation_config (conv_sequence convnet) = Ok cs →
  cs_get_dim_output cs = Ok conv_out_dim →
  ∃ convnet' h2 pushed,
    _push_allocation_config convnet h1 = Ok (convnet', h2) ∧
    h2 !! mlp_dims (top_mlp convnet') = Some pushed ∧
    (∃ width,
       pushed = width :: default [120; 84]%Z mlp_hiddens ++ [10%Z]) ∧
    length pushed = S (length (mlp_activations (top_mlp convnet'))).
Proof.
  rewrite main_convnet_run. intros [= <- <-] Hpush Hdim.
  eexists _, _, _. split.
  - eapply push_allocation_config_run; [exact Hpush|exact Hdim|].
    simpl. apply lookup_insert_eq.
  - split; [simpl; apply lookup_insert_eq|]. split; [by eexists|].
    simpl. by rewrite !length_app, length_fmap.
Qed.

(** X14: [main] builds its network exactly when each of the four layer
    arguments is a list or is omitted.  An integer, which is what the
    command line delivers for an option that is given, raises [TypeError]
    before anything is built; no other exception is raised. *)
Theorem main_network_integer_argument
    (feature_maps mlp_hiddens conv_sizes pool_sizes : argument) (h : heap) :
  (main_network feature_maps mlp_hiddens conv_sizes pool_sizes h = TypeError ↔
     (∃ n, feature_maps = ArgInt n) ∨ (∃ n, mlp_hiddens = ArgInt n) ∨
     (∃ n, conv_sizes = ArgInt n) ∨ (∃ n, pool_sizes = ArgInt n)) ∧
  (∀ e, main_network feature_maps mlp_hiddens conv_sizes pool_sizes h
          ≠ Raised e) ∧
  (∀ maps hiddens convs pools,
     iter (or_default feature_maps [6; 16]%Z) = Some maps →
     iter (or_default mlp_hiddens [120; 84]%Z) = Some hiddens →
     iter (or_default conv_sizes [5; 5]%Z) = Some convs →
     iter (or_default pool_sizes [2; 2]%Z) = Some pools →
     ∃ built,
       main_network feature_maps mlp_hiddens conv_sizes pool_sizes h
         = Returned built ∧
       main_convnet (Some maps) (Some hiddens) (Some convs) (Some pools) h
         = Ok built).
Proof.
  split; [|split].
  - destruct feature_maps, mlp_hiddens, conv_sizes, pool_sizes;
      unfold main_network; simpl; rewrite ?main_convnet_run;
      (split; [intros H; try done; eauto 10|]);
      try (intros _; reflexivity);
      by intros [[? ?]|[[? ?]|[[? ?]|[? ?]]]].
  - intros e. destruct feature_maps, mlp_hiddens, conv_sizes, pool_sizes;
      unfold main_network; simpl; rewrite ?main_convnet_run; done.
  - intros maps hiddens convs pools Hm Hh Hc Hp.
    unfold main_network. rewrite Hm, Hh, Hc, Hp, main_convnet_run.
    eexists. split; reflexivity.
Qed.

(** *** Instances of the conditional statements *)

Lemma output_dim_shared_list_witness :
  ∃ h',
    set_output_dim narrow_convnet 47 lenet5_heap = Ok ((), h') ∧
    h' !! 1%positive = Some ([120; 84] ++ [47])%Z ∧
    output_dim lenet5 h' = Ok (47%Z, h').
Proof.
  apply (output_dim_shared_list [Rectifier] [Rectifier; Rectifier] 1 1
           (3, 3)%Z (28, 28)%Z [(5, 5)]%Z [(5, 5); (5, 5)]%Z [6]%Z [6; 16]%Z
           [(2, 2)]%Z [(2, 2); (2, 2)]%Z [Softmax]
           [Rectifier; Rectifier; Softmax] None None None (Some "full")
           1%positive lenet5_heap [120; 84]%Z 10%Z 47%Z).
  reflexivity.
Defined.

Lemma set_then_push_witness :
  ∃ h1 self' h',
    set_output_dim lenet5 47 lenet5_heap = Ok ((), h1) ∧
    _push_allocation_config (protocol := blocks_protocol) lenet5 h1
      = Ok (self', h') ∧
    (∃ width, h' !! mlp_dims (top_mlp self')
                = Some (width :: [120; 84] ++ [47])%Z) ∧
    output_dim self' h' = Ok (47%Z, h').
Proof.
  apply (set_then_push (protocol := blocks_protocol) lenet5 lenet5_heap
           lenet5_resolved [16; 10; 10]%Z [120; 84]%Z 10%Z 47%Z);
    reflexivity.
Defined.

Lemma set_after_push_is_stale_witness :
  ∃ self' h1 h2,
    _push_allocation_config (protocol := blocks_protocol) lenet5 lenet5_heap
      = Ok (self', h1) ∧
    set_output_dim self' 47 h1 = Ok ((), h2) ∧
    mlp_dims (top_mlp self') ≠ top_mlp_dims self' ∧
    output_dim self' h2 = Ok (47%Z, h2) ∧
    ∃ width,
      h1 !! mlp_dims (top_mlp self') = Some (width :: [120; 84] ++ [10])%Z ∧
      h2 !! mlp_dims (top_mlp self') = Some (width :: [120; 84] ++ [10])%Z.
Proof.
  apply (set_after_push_is_stale (protocol := blocks_protocol) lenet5
           lenet5_heap lenet5_resolved [16; 10; 10]%Z [120; 84]%Z 10%Z 47%Z);
    reflexivity.
Defined.

Lemma set_output_dim_twice_witness :
  ∃ h1 h2,
    set_output_dim lenet5 47 lenet5_heap = Ok ((), h1) ∧
    set_output_dim lenet5 62 h1 = Ok ((), h2) ∧
    set_output_dim lenet5 62 lenet5_heap = Ok ((), h2).
Proof.
  apply (set_output_dim_twice lenet5 lenet5_heap [120; 84]%Z 10%Z 47%Z 62%Z).
  reflexivity.
Defined.

Lemma set_output_dim_read_back_witness :
  output_dim lenet5 lenet5_heap = Ok (10%Z, lenet5_heap) ∧
  set_output_dim lenet5 10 lenet5_heap = Ok ((), lenet5_heap).
Proof.
  split; [reflexivity|].
  apply (set_output_dim_read_back lenet5 lenet5_heap 10%Z).
  reflexivity.
Defined.

Lemma empty_widths_witness :
  output_dim lenet5 no_widths_heap = Raise IndexError ∧
  set_output_dim lenet5 47 no_widths_heap = Raise IndexError ∧
  ∃ self' h',
    _push_allocation_config (protocol := blocks_protocol) lenet5
      no_widths_heap = Ok (self', h') ∧
    (∃ width, h' !! mlp_dims (top_mlp self') = Some [width]) ∧
    output_dim self' h' = Raise IndexError.
Proof.
  apply (empty_widths (protocol := blocks_protocol) lenet5
           no_widths_heap lenet5_resolved [16; 10; 10]%Z 47%Z);
    reflexivity.
Defined.

Lemma push_raises_with_sequence_witness :
  narrow_heap !! top_mlp_dims still_convnet = Some [10]%Z ∧
  blocks_push_allocation_config (conv_sequence still_convnet)
    = Raise ZeroDivisionError ∧
  (_push_allocation_config (protocol := blocks_protocol) still_convnet
     narrow_heap = Raise ZeroDivisionError ↔
   blocks_push_allocation_config (conv_sequence still_convnet)
     = Raise ZeroDivisionError ∨
   ∃ cs, blocks_push_allocation_config (conv_sequence still_convnet) = Ok cs ∧
         blocks_get_dim_output cs = Raise ZeroDivisionError).
Proof.
  split; [reflexivity|]. split; [reflexivity|].
  apply (push_raises_with_sequence (protocol := blocks_protocol)
           still_convnet narrow_heap [10]%Z ZeroDivisionError).
  reflexivity.
Defined.

Lemma main_head_after_push_witness :
  ∃ convnet' h2 pushed,
    _push_allocation_config (protocol := blocks_protocol) lenet5 lenet5_heap
      = Ok (convnet', h2) ∧
    h2 !! mlp_dims (top_mlp convnet') = Some pushed ∧
    (∃ width, pushed = width :: [120; 84] ++ [10])%Z ∧
    length pushed = S (length (mlp_activations (top_mlp convnet'))).
Proof.
  apply (main_head_after_push (protocol := blocks_protocol) None None None
           None ∅ lenet5_heap lenet5 lenet5_resolved [16; 10; 10]%Z);
    reflexivity.
Defined.
